(** * Timing hook of pipelinex: [MLflowTimeLoggerHook]

    A shallow embedding of
    [src/pipelinex/extras/hooks/mlflow_time_logger.py] and the properties
    of its three lifecycle callbacks.

    Conventions of the embedding:
    - a Python [str] is a [string], one [ascii] for each character;
    - a Python [float] is a binary64 primitive float, so [-] and [*] are
      the IEEE operations the interpreter performs;
    - a Python [dict] is an association list in insertion order without
      duplicate keys, because [after_pipeline_run] iterates over
      [keys()];
    - [dict.get] returns [option]; [None] is the missing value;
    - the three class attributes live in the [World], not in the hook
      instance: every instance mutates the same three dictionaries;
    - a method is a function [World -> Result A * World]: a raised
      exception keeps every mutation made before it;
    - calls to the logger, to mlflow, to plotly and to the file system
      are recorded in the world's trace and return; [time.time()] reads
      the next value of a clock the world carries; an [import] raises
      when its package cannot be found. *)

From Stdlib Require Import String Ascii List Bool Arith Lia.
From Stdlib Require Import PrimFloat.
Import ListNotations.

Local Open Scope string_scope.
Local Open Scope list_scope.

(** ** Strings as the code uses them *)

Module PyStr.

(** [s.replace(c, <empty>)] for a one-character [c]. *)
Fixpoint remove_char (c : ascii) (s : string) : string :=
  match s with
  | EmptyString => EmptyString
  | String a s' =>
      if Ascii.eqb a c then remove_char c s' else String a (remove_char c s')
  end.

(** [s.split(sep)] for a one-character [sep]. *)
Fixpoint split (sep : ascii) (s : string) : list string :=
  match s with
  | EmptyString => [EmptyString]
  | String a s' =>
      if Ascii.eqb a sep then EmptyString :: split sep s'
      else match split sep s' with
           | [] => [String a EmptyString]
           | x :: xs => String a x :: xs
           end
  end.

(** [s[:n]]. *)
Fixpoint take (n : nat) (s : string) : string :=
  match n, s with
  | O, _ => EmptyString
  | _, EmptyString => EmptyString
  | S n', String a s' => String a (take n' s')
  end.

(** [sep.join(l)]. *)
Fixpoint join (sep : string) (l : list string) : string :=
  match l with
  | [] => EmptyString
  | [x] => x
  | x :: rest => x ++ sep ++ join sep rest
  end.

(** [l[0]] and [l[-1]] on the result of [split], which is never empty. *)
Definition first (l : list string) : string := hd EmptyString l.
Definition final (l : list string) : string := last l EmptyString.

(** [c in s]. *)
Fixpoint mem (c : ascii) (s : string) : bool :=
  match s with
  | EmptyString => false
  | String a s' => Ascii.eqb a c || mem c s'
  end.

(** Truth value of a string: empty is false. *)
Definition truthy (s : string) : bool :=
  match s with EmptyString => false | _ => true end.

End PyStr.

(** ** Insertion-ordered dictionaries *)

Module PyDict.

Definition dict (V : Type) : Type := list (string * V).

Definition empty {V} : dict V := [].

(** [d.get(k)] *)
Fixpoint get {V} (k : string) (d : dict V) : option V :=
  match d with
  | [] => None
  | (k', v) :: d' => if String.eqb k k' then Some v else get k d'
  end.

(** [d.update({k: v})], also [d[k] = v]: an existing key keeps its
    position, a new key goes last. *)
Fixpoint set {V} (k : string) (v : V) (d : dict V) : dict V :=
  match d with
  | [] => [(k, v)]
  | (k', v') :: d' =>
      if String.eqb k k' then (k', v) :: d' else (k', v') :: set k v d'
  end.

(** [d.update(other)]: the entries of [other] are written in order. *)
Definition update {V} (d other : dict V) : dict V :=
  fold_left (fun acc kv => set (fst kv) (snd kv) acc) other d.

(** [d.keys()] *)
Definition keys {V} (d : dict V) : list string := map fst d.

(** [k in d] *)
Definition mem {V} (k : string) (d : dict V) : bool :=
  match get k d with Some _ => true | None => false end.

(** Truth value of a dictionary: empty is false. *)
Definition truthy {V} (d : dict V) : bool :=
  match d with [] => false | _ => true end.

End PyDict.

Import PyDict.

(** ** Values, exceptions and the world *)

(** A task descriptor ([kedro.pipeline.node.Node]): only these two
    attributes are read. *)
Record Node : Type := {
  _func_name : string;
  outputs : list string
}.

(** What [importlib.util.find_spec] returns when the module is found. *)
Record ModuleSpec : Type := { spec_name : string }.

Inductive Exn : Type :=
| TypeError                              (* arithmetic on [None] *)
| ModuleNotFoundError (name : string).   (* a failed [import] *)

Inductive Result (A : Type) : Type :=
| Ok (a : A)
| Raise (e : Exn).

Arguments Ok {A} a.
Arguments Raise {A} e.

Definition is_ok {A} (r : Result A) : bool :=
  match r with Ok _ => true | Raise _ => false end.

(** One row of the list given to [create_gantt]:
    [dict(Task=k, Start=..., Finish=...)]. *)
Record GanttRow : Type := {
  Task : string;
  Start : float;
  Finish : float
}.

(** The two messages given to [log.info]: the one-entry dictionary of a
    finished task, and the whole duration dictionary at pipeline end. *)
Inductive LogMsg : Type :=
| MsgTaskDuration (time_dict : dict float)
| MsgAllDurations (time_dict : dict float).

(** [x and y] where [x] is the result of [find_spec] and [y] a [bool]:
    [None] when the module is missing, else [y] itself. *)
Definition py_and (x : option ModuleSpec) (y : bool) : option bool :=
  match x with
  | None => None
  | Some _ => Some y
  end.

(** Truth value of such a field. *)
Definition enabled (flag : option bool) : bool :=
  match flag with
  | Some b => b
  | None => false
  end.

(** [x or y] where [x] is [None] or a [str]. *)
Definition py_or (x : option string) (y : string) : string :=
  match x with
  | Some s => if PyStr.truthy s then s else y
  | None => y
  end.

(** ** The default metric name *)

Definition _get_metric_name (node : Node) : string :=
  let func_name :=
    PyStr.take 250
      (PyStr.final (PyStr.split "."
         (PyStr.first (PyStr.split " "
            (PyStr.remove_char ">" (PyStr.remove_char "<" (_func_name node)))))))
  in
  "_time_to_run " ++ func_name ++ " -- " ++ PyStr.join " - " (outputs node).

Example metric_name_locals :
  _get_metric_name {| _func_name := "make.<locals>.inner";
                      outputs := ["a"; "b"] |}
  = "_time_to_run inner -- a - b".
Proof. reflexivity. Qed.

(** ** The hook *)

Section TimeLogger.

(** The type of the values of [gantt_params] ([Dict[str, Any]]): they
    are only handed over to [create_gantt]. *)
Context {Any : Type}.

(** What [create_gantt] returns: the rows and options it was built from. *)
Record Figure : Type := {
  fig_df : list GanttRow;
  fig_params : dict Any
}.

(** Calls that leave the program, in the order they are made. *)
Inductive Event : Type :=
| EvFindSpec (name : string)
| EvImport (module_ name : string)
| EvLogInfo (msg : LogMsg)
| EvLogMetrics (metrics : dict float)
| EvLogArtifact (fp : string)
| EvCreateGantt (df : list GanttRow) (params : dict Any)
| EvMkdirParent (fp : string)
| EvWriteHtml (fig : Figure) (fp : string).

(** The process and its surroundings.  The first three fields are the
    class attributes of [MLflowTimeLoggerHook]. *)
Record World : Type := {
  _time_begin_dict : dict float;
  _time_end_dict : dict float;
  _time_dict : dict float;
  modules : string -> bool;     (* top-level packages that can be imported *)
  tempdir : string;             (* [tempfile.gettempdir()] *)
  clock : nat -> float;         (* successive readings of [time.time()] *)
  ticks : nat;                  (* readings taken so far *)
  files : dict Figure;          (* html files written, by path *)
  trace : list Event
}.

Definition with_begin (d : dict float) (w : World) : World :=
  {| _time_begin_dict := d; _time_end_dict := _time_end_dict w;
     _time_dict := _time_dict w; modules := modules w; tempdir := tempdir w;
     clock := clock w; ticks := ticks w; files := files w; trace := trace w |}.

Definition with_end (d : dict float) (w : World) : World :=
  {| _time_begin_dict := _time_begin_dict w; _time_end_dict := d;
     _time_dict := _time_dict w; modules := modules w; tempdir := tempdir w;
     clock := clock w; ticks := ticks w; files := files w; trace := trace w |}.

Definition with_time (d : dict float) (w : World) : World :=
  {| _time_begin_dict := _time_begin_dict w; _time_end_dict := _time_end_dict w;
     _time_dict := d; modules := modules w; tempdir := tempdir w;
     clock := clock w; ticks := ticks w; files := files w; trace := trace w |}.

Definition with_ticks (n : nat) (w : World) : World :=
  {| _time_begin_dict := _time_begin_dict w; _time_end_dict := _time_end_dict w;
     _time_dict := _time_dict w; modules := modules w; tempdir := tempdir w;
     clock := clock w; ticks := n; files := files w; trace := trace w |}.

Definition with_files (fs : dict Figure) (w : World) : World :=
  {| _time_begin_dict := _time_begin_dict w; _time_end_dict := _time_end_dict w;
     _time_dict := _time_dict w; modules := modules w; tempdir := tempdir w;
     clock := clock w; ticks := ticks w; files := fs; trace := trace w |}.

Definition with_trace (t : list Event) (w : World) : World :=
  {| _time_begin_dict := _time_begin_dict w; _time_end_dict := _time_end_dict w;
     _time_dict := _time_dict w; modules := modules w; tempdir := tempdir w;
     clock := clock w; ticks := ticks w; files := files w; trace := t |}.

(** *** Computations: state that survives an exception *)

Definition M (A : Type) : Type := World -> Result A * World.

Definition ret {A} (a : A) : M A := fun w => (Ok a, w).

Definition raise {A} (e : Exn) : M A := fun w => (Raise e, w).

Definition bind {A B} (m : M A) (k : A -> M B) : M B :=
  fun w =>
    match m w with
    | (Ok a, w') => k a w'
    | (Raise e, w') => (Raise e, w')
    end.

Definition gets {A} (f : World -> A) : M A := fun w => (Ok (f w), w).

Definition modify (f : World -> World) : M unit := fun w => (Ok tt, f w).

Notation "x <- m ;; k" := (bind m (fun x => k))
  (at level 61, m at next level, right associativity).
Notation "m ;; k" := (bind m (fun _ => k))
  (at level 61, right associativity).

Definition emit (e : Event) : M unit :=
  modify (fun w => with_trace (trace w ++ [e]) w).

(** *** The calls the hook makes *)

(** [time.time()] *)
Definition time_time : M float :=
  fun w => (Ok (clock w (ticks w)), with_ticks (S (ticks w)) w).

(** [find_spec(name)] for a top-level package. *)
Definition find_spec (name : string) : M (option ModuleSpec) :=
  emit (EvFindSpec name) ;;
  found <- gets (fun w => modules w name) ;;
  ret (if found then Some {| spec_name := name |} else None).

(** [from module_ import name]: the top-level package has to be there. *)
Definition import_from (module_ name : string) : M unit :=
  emit (EvImport module_ name) ;;
  let package := PyStr.first (PyStr.split "." module_) in
  found <- gets (fun w => modules w package) ;;
  if found then ret tt else raise (ModuleNotFoundError package).

(** [log.info(msg)] *)
Definition log_info (msg : LogMsg) : M unit := emit (EvLogInfo msg).

(** [mlflow.log_metrics] and [mlflow.log_artifact] *)
Definition log_metrics (metrics : dict float) : M unit :=
  emit (EvLogMetrics metrics).

Definition log_artifact (fp : string) : M unit := emit (EvLogArtifact fp).

(** [plotly.figure_factory.create_gantt(df, **params)] *)
Definition create_gantt (df : list GanttRow) (params : dict Any) : M Figure :=
  emit (EvCreateGantt df params) ;;
  ret {| fig_df := df; fig_params := params |}.

(** [Path(fp).parent.mkdir(parents=True, exist_ok=True)] *)
Definition mkdir_parent (fp : string) : M unit := emit (EvMkdirParent fp).

(** [fig.write_html(fp)] *)
Definition write_html (fig : Figure) (fp : string) : M unit :=
  emit (EvWriteHtml fig fp) ;;
  modify (fun w => with_files (PyDict.set fp fig (files w)) w).

(** [a - b] and [a * 1000] on what [dict.get] returned. *)
Definition py_sub (a b : option float) : M float :=
  match a, b with
  | Some x, Some y => ret (PrimFloat.sub x y)
  | _, _ => raise TypeError
  end.

Definition py_mul_1000 (a : option float) : M float :=
  match a with
  | Some x => ret (PrimFloat.mul x 1000%float)
  | None => raise TypeError
  end.

(** *** [MLflowTimeLoggerHook] *)

Record Hook : Type := {
  enable_mlflow : option bool;
  enable_plotly : option bool;
  gantt_filepath : option string;
  gantt_params : dict Any;
  _metric_name_func : Node -> string
}.

Definition __init__
    (enable_mlflow_ enable_plotly_ : bool) (gantt_filepath_ : option string)
    (gantt_params_ : dict Any) (metric_name_func : Node -> string) : M Hook :=
  spec_mlflow <- find_spec "mlflow" ;;
  spec_plotly <- find_spec "plotly" ;;
  ret {| enable_mlflow := py_and spec_mlflow enable_mlflow_;
         enable_plotly := py_and spec_plotly enable_plotly_;
         gantt_filepath := gantt_filepath_;
         gantt_params := gantt_params_;
         _metric_name_func := metric_name_func |}.

Definition before_node_run (self : Hook) (node : Node) : M unit :=
  let node_name := _metric_name_func self node in
  now <- time_time ;;
  let time_begin_dict := [(node_name, now)] in
  modify (fun w =>
    with_begin (PyDict.update (_time_begin_dict w) time_begin_dict) w).

Definition after_node_run (self : Hook) (node : Node) : M unit :=
  let node_name := _metric_name_func self node in
  now <- time_time ;;
  let time_end_dict := [(node_name, now)] in
  modify (fun w =>
    with_end (PyDict.update (_time_end_dict w) time_end_dict) w) ;;
  time_end <- gets (fun w => PyDict.get node_name (_time_end_dict w)) ;;
  time_begin <- gets (fun w => PyDict.get node_name (_time_begin_dict w)) ;;
  duration <- py_sub time_end time_begin ;;
  let time_dict := [(node_name, duration)] in
  log_info (MsgTaskDuration time_dict) ;;
  (if enabled (enable_mlflow self)
   then import_from "mlflow" "log_metrics" ;; log_metrics time_dict
   else ret tt) ;;
  modify (fun w => with_time (PyDict.update (_time_dict w) time_dict) w).

(** The list comprehension of [after_pipeline_run]. *)
Fixpoint gantt_rows (ks : list string) : M (list GanttRow) :=
  match ks with
  | [] => ret []
  | k :: ks' =>
      time_begin <- gets (fun w => PyDict.get k (_time_begin_dict w)) ;;
      start <- py_mul_1000 time_begin ;;
      time_end <- gets (fun w => PyDict.get k (_time_end_dict w)) ;;
      finish <- py_mul_1000 time_end ;;
      rows <- gantt_rows ks' ;;
      ret ({| Task := k; Start := start; Finish := finish |} :: rows)
  end.

Definition after_pipeline_run (self : Hook) : M unit :=
  time_dict <- gets _time_dict ;;
  log_info (MsgAllDurations time_dict) ;;
  begin_dict <- gets _time_begin_dict ;;
  if enabled (enable_plotly self) && PyDict.truthy begin_dict then
    import_from "plotly.figure_factory" "create_gantt" ;;
    df <- gantt_rows (PyDict.keys begin_dict) ;;
    fig <- create_gantt df (gantt_params self) ;;
    tmp <- gets tempdir ;;
    let fp := py_or (gantt_filepath self) (tmp ++ "/_gantt.html") in
    mkdir_parent fp ;;
    write_html fig fp ;;
    if enabled (enable_mlflow self)
    then import_from "mlflow" "log_artifact" ;; log_artifact fp
    else ret tt
  else ret tt.


(** *** Calls made by the host, in any order and on any instance *)

Inductive Call : Type :=
| CallBefore (self : Hook) (node : Node)
| CallAfter (self : Hook) (node : Node)
| CallPipelineEnd (self : Hook).

Definition step (c : Call) : M unit :=
  match c with
  | CallBefore self node => before_node_run self node
  | CallAfter self node => after_node_run self node
  | CallPipelineEnd self => after_pipeline_run self
  end.

(** The world after a sequence of calls; what the host does with an
    exception does not change the world the next call finds. *)
Definition run (cs : list Call) (w : World) : World :=
  fold_left (fun w' c => snd (step c w')) cs w.


(** *** Descriptions used in the statements *)

(** The trace after [evs] have been emitted one by one. *)
Definition record (t evs : list Event) : list Event :=
  fold_left (fun t' e => t' ++ [e]) evs t.

Definition emits (evs : list Event) (w : World) : World :=
  with_trace (record (trace w) evs) w.

(** The rows of the comprehension, when every lookup finds a value. *)
Fixpoint rows_of (begin_dict end_dict : dict float) (ks : list string)
  : option (list GanttRow) :=
  match ks with
  | [] => Some []
  | k :: ks' =>
      match PyDict.get k begin_dict, PyDict.get k end_dict, rows_of begin_dict end_dict ks' with
      | Some b, Some e, Some rows =>
          Some ({| Task := k; Start := PrimFloat.mul b 1000%float;
                   Finish := PrimFloat.mul e 1000%float |} :: rows)
      | _, _, _ => None
      end
  end.








(** ** Dictionaries *)

Lemma get_set_same {V} (k : string) (v : V) (d : dict V) :
  PyDict.get k (PyDict.set k v d) = Some v.
Proof.
  induction d as [|[k' v'] d IH]; simpl.
  - now rewrite String.eqb_refl.
  - destruct (String.eqb k k') eqn:E; simpl; rewrite E; auto.
Qed.

Lemma get_set_other {V} (k k' : string) (v : V) (d : dict V) :
  k <> k' -> PyDict.get k' (PyDict.set k v d) = PyDict.get k' d.
Proof.
  intros Hne. induction d as [|[k0 v0] d IH]; simpl.
  - destruct (String.eqb_spec k' k); congruence.
  - destruct (String.eqb_spec k k0) as [->|Hk]; simpl.
    + destruct (String.eqb_spec k' k0); congruence.
    + now rewrite IH.
Qed.

Lemma update_one {V} (k : string) (v : V) (d : dict V) :
  PyDict.update d [(k, v)] = PyDict.set k v d.
Proof. reflexivity. Qed.

Lemma set_set_same {V} (k : string) (v : V) (d : dict V) :
  PyDict.set k v (PyDict.set k v d) = PyDict.set k v d.
Proof.
  induction d as [|[k' v'] d IH]; simpl.
  - now rewrite String.eqb_refl.
  - destruct (String.eqb k k') eqn:E; simpl; rewrite E; congruence.
Qed.

(** Writing a key never removes or reorders keys: the key list is the
    old one, with the key added at the end when it is new. *)
Lemma keys_set {V} (k : string) (v : V) (d : dict V) :
  PyDict.keys (PyDict.set k v d) =
  PyDict.keys d ++ (if PyDict.mem k d then [] else [k]).
Proof.
  unfold PyDict.keys, PyDict.mem.
  induction d as [|[k' v'] d IH]; simpl; auto.
  destruct (String.eqb_spec k k') as [->|Hk]; simpl.
  - now rewrite app_nil_r.
  - now rewrite IH.
Qed.

Lemma mem_keys {V} (k : string) (d : dict V) :
  PyDict.mem k d = true <-> In k (PyDict.keys d).
Proof.
  unfold PyDict.keys, PyDict.mem.
  induction d as [|[k' v'] d IH]; simpl.
  - split; [discriminate | tauto].
  - destruct (String.eqb_spec k k') as [->|Hk].
    + split; auto.
    + rewrite IH. split; [tauto | intros [H|H]; congruence].
Qed.

Lemma mem_get {V} (k : string) (d : dict V) :
  PyDict.mem k d = true <-> exists v, PyDict.get k d = Some v.
Proof.
  unfold PyDict.mem. destruct (PyDict.get k d).
  - split; eauto.
  - split; [discriminate | intros [v H]; discriminate].
Qed.


(** ** The metric name *)

Lemma remove_char_mem (c : ascii) (s : string) :
  PyStr.mem c (PyStr.remove_char c s) = false.
Proof.
  induction s as [|a s IH]; simpl; auto.
  destruct (Ascii.eqb a c) eqn:E; simpl; auto.
  now rewrite E.
Qed.

Lemma remove_char_keeps (c c' : ascii) (s : string) :
  PyStr.mem c s = false -> PyStr.mem c (PyStr.remove_char c' s) = false.
Proof.
  induction s as [|a s IH]; simpl; auto.
  intros H. apply orb_false_iff in H as [Ha Hs].
  destruct (Ascii.eqb a c'); simpl; auto.
  now rewrite Ha, IH.
Qed.

(** No character appears in a piece of a split that was not in the
    string. *)
Lemma split_mem (c sep : ascii) (s : string) :
  PyStr.mem c s = false ->
  Forall (fun piece => PyStr.mem c piece = false) (PyStr.split sep s).
Proof.
  induction s as [|a s IH]; simpl; intros H.
  - repeat constructor.
  - apply orb_false_iff in H as [Ha Hs]. specialize (IH Hs).
    destruct (Ascii.eqb a sep).
    + constructor; auto.
    + destruct (PyStr.split sep s) as [|x xs].
      * repeat constructor. simpl. now rewrite Ha.
      * inversion IH; subst. constructor; auto. simpl. now rewrite Ha.
Qed.

Lemma split_nonempty (sep : ascii) (s : string) : PyStr.split sep s <> [].
Proof.
  destruct s as [|a s]; simpl; [discriminate|].
  destruct (Ascii.eqb a sep); [discriminate|].
  destruct (PyStr.split sep s); discriminate.
Qed.

Lemma first_mem (c : ascii) (l : list string) :
  Forall (fun piece => PyStr.mem c piece = false) l ->
  PyStr.mem c (PyStr.first l) = false.
Proof. intros H. destruct H; simpl; auto. Qed.

Lemma final_mem (c : ascii) (l : list string) :
  Forall (fun piece => PyStr.mem c piece = false) l ->
  PyStr.mem c (PyStr.final l) = false.
Proof.
  unfold PyStr.final. induction 1 as [|x l Hx Hl IH]; simpl; auto.
  destruct l; auto.
Qed.

Lemma take_mem (c : ascii) (n : nat) (s : string) :
  PyStr.mem c s = false -> PyStr.mem c (PyStr.take n s) = false.
Proof.
  revert s. induction n as [|n IH]; intros [|a s]; simpl; auto.
  intros H. apply orb_false_iff in H as [Ha Hs]. now rewrite Ha, IH.
Qed.

Lemma take_length (n : nat) (s : string) :
  String.length (PyStr.take n s) = Nat.min n (String.length s).
Proof.
  revert s. induction n as [|n IH]; intros [|a s]; simpl; auto.
Qed.

(** ** What each callback does, case by case *)

Lemma before_node_run_eq (self : Hook) (node : Node) (w : World) :
  before_node_run self node w =
  (Ok tt,
   with_begin (PyDict.set (_metric_name_func self node) (clock w (ticks w))
                          (_time_begin_dict w))
              (with_ticks (S (ticks w)) w)).
Proof. reflexivity. Qed.

(** The world once [after_node_run] has stored the end timestamp. *)
Definition ended (name : string) (w : World) : World :=
  with_end (PyDict.set name (clock w (ticks w)) (_time_end_dict w))
           (with_ticks (S (ticks w)) w).

Lemma after_node_run_eq (self : Hook) (node : Node) (w : World) :
  after_node_run self node w =
  let name := _metric_name_func self node in
  match PyDict.get name (_time_begin_dict w) with
  | None => (Raise TypeError, ended name w)
  | Some t1 =>
      let duration := PrimFloat.sub (clock w (ticks w)) t1 in
      let time_dict := [(name, duration)] in
      let logged := EvLogInfo (MsgTaskDuration time_dict) in
      let imported := EvImport "mlflow" "log_metrics" in
      let store w' :=
        with_time (PyDict.set name duration (_time_dict w)) w' in
      if enabled (enable_mlflow self) then
        if modules w "mlflow"
        then (Ok tt,
              store (emits [logged; imported; EvLogMetrics time_dict]
                           (ended name w)))
        else (Raise (ModuleNotFoundError "mlflow"),
              emits [logged; imported] (ended name w))
      else (Ok tt, store (emits [logged] (ended name w)))
  end.
Proof.
  unfold after_node_run, bind, time_time, modify, gets; cbn.
  rewrite get_set_same.
  destruct (PyDict.get (_metric_name_func self node) (_time_begin_dict w));
    cbn; [|reflexivity].
  destruct (enabled (enable_mlflow self)); cbn; [|reflexivity].
  destruct (modules w "mlflow"); reflexivity.
Qed.

Lemma gantt_rows_eq (ks : list string) (w : World) :
  gantt_rows ks w =
  (match rows_of (_time_begin_dict w) (_time_end_dict w) ks with
   | Some rows => Ok rows
   | None => Raise TypeError
   end, w).
Proof.
  induction ks as [|k ks IH]; cbn; [reflexivity|].
  unfold bind, gets; cbn.
  destruct (PyDict.get k (_time_begin_dict w)); cbn; [|reflexivity].
  destruct (PyDict.get k (_time_end_dict w)); cbn; [|reflexivity].
  fold (gantt_rows ks). rewrite IH.
  destruct (rows_of (_time_begin_dict w) (_time_end_dict w) ks); reflexivity.
Qed.

(** The path the chart is written to. *)
Definition chart_path (self : Hook) (w : World) : string :=
  py_or (gantt_filepath self) (tempdir w ++ "/_gantt.html").

Lemma after_pipeline_run_eq (self : Hook) (w : World) :
  after_pipeline_run self w =
  let logged := EvLogInfo (MsgAllDurations (_time_dict w)) in
  if enabled (enable_plotly self) && PyDict.truthy (_time_begin_dict w) then
    let imported := EvImport "plotly.figure_factory" "create_gantt" in
    if modules w "plotly" then
      match rows_of (_time_begin_dict w) (_time_end_dict w)
                    (PyDict.keys (_time_begin_dict w)) with
      | None => (Raise TypeError, emits [logged; imported] w)
      | Some df =>
          let fig := {| fig_df := df; fig_params := gantt_params self |} in
          let fp := chart_path self w in
          let chart := [logged; imported;
                        EvCreateGantt df (gantt_params self);
                        EvMkdirParent fp; EvWriteHtml fig fp] in
          let written w' := with_files (PyDict.set fp fig (files w)) w' in
          if enabled (enable_mlflow self) then
            if modules w "mlflow"
            then (Ok tt,
                  written (emits (chart ++ [EvImport "mlflow" "log_artifact";
                                            EvLogArtifact fp]) w))
            else (Raise (ModuleNotFoundError "mlflow"),
                  written (emits (chart ++ [EvImport "mlflow" "log_artifact"]) w))
          else (Ok tt, written (emits chart w))
      end
    else (Raise (ModuleNotFoundError "plotly"), emits [logged; imported] w)
  else (Ok tt, emits [logged] w).
Proof.
  unfold after_pipeline_run, bind, gets, log_info, emit, modify; cbn.
  destruct (enabled (enable_plotly self) && PyDict.truthy (_time_begin_dict w));
    [|reflexivity].
  unfold import_from, bind, gets, emit, modify; cbn.
  destruct (modules w "plotly"); cbn; [|reflexivity].
  rewrite gantt_rows_eq; cbn.
  destruct (rows_of _ _ _); cbn; [|reflexivity].
  destruct (enabled (enable_mlflow self)); cbn; [|reflexivity].
  destruct (modules w "mlflow"); reflexivity.
Qed.

Lemma init_eq (em ep : bool) (fp : option string) (gp : dict Any)
    (f : Node -> string) (w : World) :
  __init__ em ep fp gp f w =
  (Ok {| enable_mlflow := if modules w "mlflow" then Some em else None;
         enable_plotly := if modules w "plotly" then Some ep else None;
         gantt_filepath := fp;
         gantt_params := gp;
         _metric_name_func := f |},
   emits [EvFindSpec "mlflow"; EvFindSpec "plotly"] w).
Proof.
  unfold __init__, find_spec, bind, gets, emit, modify, ret; cbn.
  destruct (modules w "mlflow"), (modules w "plotly"); reflexivity.
Qed.

(** ** The comprehension *)






(** ** What no call changes *)

Ltac hook_cases :=
  repeat match goal with
         | |- context [match ?x with _ => _ end] => destruct x eqn:?; cbn
         end.

Lemma step_env (c : Call) (w : World) :
  modules (snd (step c w)) = modules w /\
  clock (snd (step c w)) = clock w /\
  tempdir (snd (step c w)) = tempdir w.
Proof.
  destruct c; cbn [step].
  - rewrite before_node_run_eq. auto.
  - rewrite after_node_run_eq; cbn zeta. hook_cases; auto.
  - rewrite after_pipeline_run_eq; cbn zeta. hook_cases; auto.
Qed.







(** ** Instances built by [__init__] *)

Lemma init_fields (em ep : bool) (fp : option string) (gp : dict Any)
    (f : Node -> string) (w0 w1 : World) (h : Hook) :
  __init__ em ep fp gp f w0 = (Ok h, w1) ->
  enabled (enable_mlflow h) = modules w0 "mlflow" && em /\
  enabled (enable_plotly h) = modules w0 "plotly" && ep /\
  gantt_filepath h = fp /\ gantt_params h = gp /\ _metric_name_func h = f /\
  w1 = emits [EvFindSpec "mlflow"; EvFindSpec "plotly"] w0.
Proof.
  rewrite init_eq. intros H. injection H as <- <-. cbn.
  destruct (modules w0 "mlflow"), (modules w0 "plotly"); cbn; auto 10.
Qed.


(** ** Claims *)


(** C2, as the code has it.  When the metric name has no begin
    timestamp, [after_node_run] raises [TypeError]: the lookup gives
    [None] and the subtraction is not defined on it.  No duration is
    stored, and nothing is logged or forwarded. *)
Theorem C2_end_without_begin_raises
    (self : Hook) (node : Node) (w : World) :
  PyDict.get (_metric_name_func self node) (_time_begin_dict w) = None ->
  fst (after_node_run self node w) = Raise TypeError /\
  _time_dict (snd (after_node_run self node w)) = _time_dict w /\
  trace (snd (after_node_run self node w)) = trace w.
Proof.
  intros H. rewrite after_node_run_eq; cbn zeta. rewrite H. auto.
Qed.

(** C9. When the begin timestamp is missing, [after_node_run] fails
    after it has written the end timestamp: the end dictionary holds the
    new reading, the begin and duration dictionaries are as before. *)
Theorem C9_end_written_before_failure
    (self : Hook) (node : Node) (w : World) :
  PyDict.get (_metric_name_func self node) (_time_begin_dict w) = None ->
  let name := _metric_name_func self node in
  let w' := snd (after_node_run self node w) in
  fst (after_node_run self node w) = Raise TypeError /\
  _time_end_dict w' = PyDict.set name (clock w (ticks w)) (_time_end_dict w) /\
  PyDict.get name (_time_end_dict w') = Some (clock w (ticks w)) /\
  _time_dict w' = _time_dict w /\
  _time_begin_dict w' = _time_begin_dict w.
Proof.
  intros H name w'. subst name w'. rewrite after_node_run_eq; cbn zeta.
  rewrite H; cbn. repeat split. apply get_set_same.
Qed.


(** ** Pipeline end *)


Ltac norm_trace := cbn; repeat rewrite <- app_assoc; cbn [app].







(** ** Growth of the three dictionaries *)

(** [d'] has the keys of [d], in the same order, and then maybe more. *)
Definition extends {V} (d d' : dict V) : Prop :=
  exists added, PyDict.keys d' = PyDict.keys d ++ added.

Lemma extends_refl {V} (d : dict V) : extends d d.
Proof. exists []. now rewrite app_nil_r. Qed.

Lemma extends_trans {V} (d1 d2 d3 : dict V) :
  extends d1 d2 -> extends d2 d3 -> extends d1 d3.
Proof.
  intros [a Ha] [b Hb]. exists (a ++ b). now rewrite Hb, Ha, app_assoc.
Qed.

Lemma extends_set {V} (k : string) (v : V) (d : dict V) :
  extends d (PyDict.set k v d).
Proof. eexists. apply keys_set. Qed.

Lemma extends_mem {V} (d d' : dict V) (k : string) :
  extends d d' -> PyDict.mem k d = true -> PyDict.mem k d' = true.
Proof.
  intros [a Ha] H. apply mem_keys. rewrite Ha. apply in_or_app. left.
  now apply mem_keys.
Qed.

Lemma step_extends (c : Call) (w : World) :
  extends (_time_begin_dict w) (_time_begin_dict (snd (step c w))) /\
  extends (_time_end_dict w) (_time_end_dict (snd (step c w))) /\
  extends (_time_dict w) (_time_dict (snd (step c w))).
Proof.
  destruct c; cbn [step].
  - rewrite before_node_run_eq; cbn.
    auto using extends_refl, extends_set.
  - rewrite after_node_run_eq; cbn zeta.
    hook_cases; auto using extends_refl, extends_set.
  - rewrite after_pipeline_run_eq; cbn zeta.
    hook_cases; auto using extends_refl.
Qed.

Lemma pipeline_end_keeps (self : Hook) (w : World) :
  _time_begin_dict (snd (after_pipeline_run self w)) = _time_begin_dict w /\
  _time_end_dict (snd (after_pipeline_run self w)) = _time_end_dict w /\
  _time_dict (snd (after_pipeline_run self w)) = _time_dict w.
Proof.
  rewrite after_pipeline_run_eq; cbn zeta. hook_cases; auto.
Qed.

(** C6. Over any sequence of calls, on any instances and whether or not
    they raise, each of the three dictionaries keeps all its keys in
    their order and may only get new ones after them; a key that is
    there stays there.  [after_pipeline_run] leaves the three
    dictionaries as they are, so nothing is cleared between runs. *)
Theorem C6_dictionaries_only_grow (cs : list Call) (w : World) :
  (extends (_time_begin_dict w) (_time_begin_dict (run cs w)) /\
   extends (_time_end_dict w) (_time_end_dict (run cs w)) /\
   extends (_time_dict w) (_time_dict (run cs w))) /\
  (forall k,
     (PyDict.mem k (_time_begin_dict w) = true ->
      PyDict.mem k (_time_begin_dict (run cs w)) = true) /\
     (PyDict.mem k (_time_end_dict w) = true ->
      PyDict.mem k (_time_end_dict (run cs w)) = true) /\
     (PyDict.mem k (_time_dict w) = true ->
      PyDict.mem k (_time_dict (run cs w)) = true)) /\
  (forall self,
     _time_begin_dict (snd (after_pipeline_run self w)) = _time_begin_dict w /\
     _time_end_dict (snd (after_pipeline_run self w)) = _time_end_dict w /\
     _time_dict (snd (after_pipeline_run self w)) = _time_dict w).
Proof.
  assert (Hext : forall cs w,
    extends (_time_begin_dict w) (_time_begin_dict (run cs w)) /\
    extends (_time_end_dict w) (_time_end_dict (run cs w)) /\
    extends (_time_dict w) (_time_dict (run cs w))).
  { clear. induction cs as [|c cs IH]; intros w; cbn.
    - auto using extends_refl.
    - fold (run cs (snd (step c w))).
      destruct (step_extends c w) as (Hb & He & Ht).
      destruct (IH (snd (step c w))) as (Hb' & He' & Ht').
      repeat split; eapply extends_trans; eassumption. }
  destruct (Hext cs w) as (Hb & He & Ht).
  split; [auto|]. split.
  - intros k. repeat split; intros H; eapply extends_mem; eassumption.
  - intros self. apply pipeline_end_keeps.
Qed.

(** ** Pipeline end twice *)

(** What [after_pipeline_run] returns, emits and writes is settled by
    the three dictionaries, the importable packages and the temp
    directory. *)
Lemma pipeline_end_same_inputs (self : Hook) (w w2 : World) :
  _time_begin_dict w2 = _time_begin_dict w ->
  _time_end_dict w2 = _time_end_dict w ->
  _time_dict w2 = _time_dict w ->
  modules w2 = modules w ->
  tempdir w2 = tempdir w ->
  fst (after_pipeline_run self w2) = fst (after_pipeline_run self w) /\
  exists (evs : list Event) (write : dict Figure -> dict Figure),
    trace (snd (after_pipeline_run self w)) = trace w ++ evs /\
    trace (snd (after_pipeline_run self w2)) = trace w2 ++ evs /\
    files (snd (after_pipeline_run self w)) = write (files w) /\
    files (snd (after_pipeline_run self w2)) = write (files w2) /\
    (forall d, write (write d) = write d).
Proof.
  intros Hb He Ht Hm Htmp.
  rewrite !after_pipeline_run_eq; cbn zeta.
  unfold chart_path. rewrite Hb, He, Ht, Hm, Htmp.
  hook_cases;
    (split; [reflexivity|]);
    first [ eexists; exists (fun d => d); norm_trace;
            repeat split; reflexivity
          | eexists; eexists (PyDict.set _ _); norm_trace;
            repeat split; try reflexivity; intros; apply set_set_same ].
Qed.

Lemma pipeline_end_logs (self : Hook) (w : World) :
  exists rest,
    trace (snd (after_pipeline_run self w)) =
    trace w ++ EvLogInfo (MsgAllDurations (_time_dict w)) :: rest.
Proof.
  rewrite after_pipeline_run_eq; cbn zeta.
  hook_cases; eexists; norm_trace; reflexivity.
Qed.

(** C7. [after_pipeline_run] twice in a row, on any instance in any
    world: the first call leaves the three dictionaries as they are; the
    second call returns or raises as the first did and makes the same
    calls with the same arguments, the log message and the chart rows
    among them; and the files after the second call are the files after
    the first, the chart file being written again with the same
    figure. *)
Theorem C7_pipeline_end_twice (self : Hook) (w : World) :
  let w1 := snd (after_pipeline_run self w) in
  let w2 := snd (after_pipeline_run self w1) in
  fst (after_pipeline_run self w1) = fst (after_pipeline_run self w) /\
  (_time_begin_dict w1 = _time_begin_dict w /\
   _time_end_dict w1 = _time_end_dict w /\
   _time_dict w1 = _time_dict w) /\
  (exists rest,
     let evs := EvLogInfo (MsgAllDurations (_time_dict w)) :: rest in
     trace w1 = trace w ++ evs /\ trace w2 = trace w1 ++ evs) /\
  files w2 = files w1.
Proof.
  intros w1 w2.
  destruct (pipeline_end_keeps self w) as (Hb & He & Ht).
  destruct (step_env (CallPipelineEnd self) w) as (Hm & _ & Htmp).
  cbn [step] in Hm, Htmp. fold w1 in Hb, He, Ht, Hm, Htmp.
  destruct (pipeline_end_same_inputs self w w1 Hb He Ht Hm Htmp)
    as (Hres & evs & write & Htr1 & Htr2 & Hf1 & Hf2 & Hidem).
  fold w1 in Htr1, Hf1. fold w2 in Htr2, Hf2.
  split; [exact Hres|]. split; [auto|]. split.
  - destruct (pipeline_end_logs self w) as [rest Hlog]. fold w1 in Hlog.
    exists rest. cbn zeta.
    assert (evs = EvLogInfo (MsgAllDurations (_time_dict w)) :: rest) as <-.
    { apply (app_inv_head (trace w)). congruence. }
    auto.
  - now rewrite Hf2, Hf1, Hidem.
Qed.

(** ** Capabilities *)



(** ** More on the default metric name *)

(** The local variable [func_name] of [_get_metric_name]. *)
Definition func_name_of (node : Node) : string :=
  PyStr.take 250
    (PyStr.final (PyStr.split "."
       (PyStr.first (PyStr.split " "
          (PyStr.remove_char ">" (PyStr.remove_char "<" (_func_name node))))))).

Lemma metric_name_eq (node : Node) :
  _get_metric_name node =
  ("_time_to_run " ++ func_name_of node ++ " -- "
     ++ PyStr.join " - " (outputs node))%string.
Proof. reflexivity. Qed.

Lemma str_length_app (s t : string) :
  String.length (s ++ t) = String.length s + String.length t.
Proof. induction s as [|a s IH]; simpl; auto. Qed.

Lemma mem_app (c : ascii) (s t : string) :
  PyStr.mem c (s ++ t) = PyStr.mem c s || PyStr.mem c t.
Proof.
  induction s as [|a s IH]; simpl; auto. now rewrite IH, orb_assoc.
Qed.

Lemma remove_char_app (c : ascii) (s t : string) :
  PyStr.remove_char c (s ++ t)
  = (PyStr.remove_char c s ++ PyStr.remove_char c t)%string.
Proof.
  induction s as [|a s IH]; simpl; auto.
  destruct (Ascii.eqb a c); simpl; now rewrite IH.
Qed.

Lemma remove_char_id (c : ascii) (s : string) :
  PyStr.mem c s = false -> PyStr.remove_char c s = s.
Proof.
  induction s as [|a s IH]; simpl; auto.
  intros H. apply orb_false_iff in H as [Ha Hs]. now rewrite Ha, IH.
Qed.

(** A string without the separator is the only piece. *)
Lemma split_no_sep (sep : ascii) (s : string) :
  PyStr.mem sep s = false -> PyStr.split sep s = [s].
Proof.
  induction s as [|a s IH]; simpl; auto.
  intros H. apply orb_false_iff in H as [Ha Hs]. now rewrite Ha, IH.
Qed.

(** No piece holds the separator. *)
Lemma split_pieces (sep : ascii) (s : string) :
  Forall (fun piece => PyStr.mem sep piece = false) (PyStr.split sep s).
Proof.
  induction s as [|a s IH]; simpl.
  - repeat constructor.
  - destruct (Ascii.eqb a sep) eqn:E.
    + constructor; auto.
    + destruct (PyStr.split sep s) as [|x xs].
      * repeat constructor. simpl. now rewrite E.
      * inversion IH; subst. constructor; auto. simpl. now rewrite E.
Qed.

(** [(a + sep + b).split(sep) == a.split(sep) + b.split(sep)] *)
Lemma split_app (sep : ascii) (a b : string) :
  PyStr.split sep (a ++ String sep b)
  = PyStr.split sep a ++ PyStr.split sep b.
Proof.
  induction a as [|x a IH]; simpl.
  - now rewrite Ascii.eqb_refl.
  - destruct (Ascii.eqb x sep); rewrite IH; [reflexivity|].
    pose proof (split_nonempty sep a) as Hne.
    destruct (PyStr.split sep a); [contradiction | reflexivity].
Qed.

Lemma final_app (l l' : list string) :
  l' <> [] -> PyStr.final (l ++ l') = PyStr.final l'.
Proof.
  unfold PyStr.final. intros H. induction l as [|x l IH]; simpl; auto.
  destruct (l ++ l') eqn:E; [|exact IH].
  apply app_eq_nil in E as [_ E]. contradiction.
Qed.

Lemma take_all (n : nat) (s : string) :
  String.length s <= n -> PyStr.take n s = s.
Proof.
  revert n. induction s as [|a s IH]; intros [|n] H; simpl in *; auto.
  - inversion H.
  - now rewrite IH by now apply le_S_n.
Qed.

(** The two [replace] calls together. *)
Definition strip (s : string) : string :=
  PyStr.remove_char ">" (PyStr.remove_char "<" s).

Lemma strip_clean (s : string) :
  PyStr.mem "<" (strip s) = false /\ PyStr.mem ">" (strip s) = false.
Proof.
  unfold strip. split.
  - apply remove_char_keeps, remove_char_mem.
  - apply remove_char_mem.
Qed.

Lemma strip_keeps (c : ascii) (s : string) :
  PyStr.mem c s = false -> PyStr.mem c (strip s) = false.
Proof. intros H. now apply remove_char_keeps, remove_char_keeps. Qed.

Lemma strip_strip (s : string) : strip (strip s) = strip s.
Proof.
  destruct (strip_clean s) as [Hlt Hgt].
  unfold strip at 1. now rewrite (remove_char_id "<"), (remove_char_id ">").
Qed.

Lemma strip_app (s t : string) : strip (s ++ t) = (strip s ++ strip t)%string.
Proof. unfold strip. now rewrite !remove_char_app. Qed.

Lemma strip_cons (c : ascii) (s : string) :
  c <> "<"%char -> c <> ">"%char -> strip (String c s) = String c (strip s).
Proof.
  intros Hlt Hgt. unfold strip. simpl.
  destruct (Ascii.eqb_spec c "<"); [contradiction|]. simpl.
  destruct (Ascii.eqb_spec c ">"); [contradiction|]. reflexivity.
Qed.

Lemma str_app_assoc (s t u : string) :
  ((s ++ t) ++ u = s ++ (t ++ u))%string.
Proof. induction s as [|a s IH]; simpl; congruence. Qed.

(** X1. The function-name part of the default metric name holds neither
    a space nor a dot: it is cut out of the function name at the first
    space and after the last dot. *)
Theorem X1_func_name_no_space_no_dot (node : Node) :
  _get_metric_name node =
    ("_time_to_run " ++ func_name_of node ++ " -- "
       ++ PyStr.join " - " (outputs node))%string /\
  PyStr.mem " " (func_name_of node) = false /\
  PyStr.mem "." (func_name_of node) = false.
Proof.
  split; [reflexivity|]. unfold func_name_of.
  fold (strip (_func_name node)).
  pose proof (split_pieces " " (strip (_func_name node))) as Hsp.
  apply first_mem in Hsp.
  split; apply take_mem, final_mem.
  - now apply split_mem.
  - apply split_pieces.
Qed.

(** X2. The default metric name is 17 characters longer than its
    function-name part and its joined output names together, hence at
    most 267 characters longer than the joined output names: the cut at
    250 bounds the function-name part, not the metric name. *)
Theorem X2_metric_name_length (node : Node) :
  String.length (_get_metric_name node)
  = 17 + String.length (func_name_of node)
       + String.length (PyStr.join " - " (outputs node)) /\
  String.length (_get_metric_name node)
  <= 267 + String.length (PyStr.join " - " (outputs node)).
Proof.
  assert (Hlen : String.length (func_name_of node) <= 250).
  { unfold func_name_of. rewrite take_length. apply Nat.le_min_l. }
  rewrite metric_name_eq, !str_length_app. cbn [String.length].
  split; lia.
Qed.

(** X3. A function name of at most 250 characters without brackets,
    spaces and dots is taken as it is. *)
Theorem X3_plain_function_name (node : Node) :
  PyStr.mem "<" (_func_name node) = false ->
  PyStr.mem ">" (_func_name node) = false ->
  PyStr.mem " " (_func_name node) = false ->
  PyStr.mem "." (_func_name node) = false ->
  String.length (_func_name node) <= 250 ->
  _get_metric_name node =
    ("_time_to_run " ++ _func_name node ++ " -- "
       ++ PyStr.join " - " (outputs node))%string.
Proof.
  intros Hlt Hgt Hsp Hdot Hlen.
  rewrite metric_name_eq. unfold func_name_of.
  rewrite (remove_char_id "<"), (remove_char_id ">") by assumption.
  rewrite (split_no_sep " ") by assumption. cbn [PyStr.first hd].
  rewrite (split_no_sep ".") by assumption. cbn [PyStr.final last].
  now rewrite take_all.
Qed.

(** X4. Brackets in the function name make no difference: a task whose
    function name is another's with ['<'] and ['>'] taken out gets the
    same metric name when the outputs are the same. *)
Theorem X4_brackets_make_no_difference (name : string) (outs : list string) :
  _get_metric_name {| _func_name := strip name; outputs := outs |}
  = _get_metric_name {| _func_name := name; outputs := outs |}.
Proof.
  rewrite !metric_name_eq. unfold func_name_of. cbn [_func_name outputs].
  fold (strip name). fold (strip (strip name)). now rewrite strip_strip.
Qed.

(** X5. Only the last dotted segment before the first space counts: a
    dotted prefix [q] without a space and any text [t] after a space are
    dropped, so tasks that differ in these alone share a metric name. *)
Theorem X5_prefix_and_tail_dropped (q s t : string) (outs : list string) :
  PyStr.mem " " q = false ->
  PyStr.mem " " s = false ->
  PyStr.mem "." s = false ->
  _get_metric_name
    {| _func_name := (q ++ "." ++ s ++ " " ++ t)%string; outputs := outs |}
  = _get_metric_name {| _func_name := s; outputs := outs |}.
Proof.
  intros Hq Hs Hdot.
  rewrite !metric_name_eq. unfold func_name_of. cbn [_func_name outputs].
  fold (strip s). fold (strip (q ++ "." ++ s ++ " " ++ t)).
  assert (Hstrip : strip (q ++ "." ++ s ++ " " ++ t)
                   = ((strip q ++ String "." (strip s))
                        ++ String " " (strip t))%string).
  { change (q ++ "." ++ s ++ " " ++ t)%string
      with (q ++ String "." (s ++ String " " t))%string.
    rewrite strip_app, strip_cons, strip_app, strip_cons by discriminate.
    now rewrite str_app_assoc. }
  rewrite Hstrip. clear Hstrip.
  assert (Hleft : PyStr.mem " " (strip q ++ String "." (strip s)) = false).
  { rewrite mem_app. cbn [PyStr.mem Ascii.eqb Bool.eqb orb].
    now rewrite !strip_keeps. }
  rewrite split_app, (split_no_sep " " _ Hleft). cbn [app PyStr.first hd].
  rewrite (split_no_sep " ") by now apply strip_keeps. cbn [PyStr.first hd].
  rewrite split_app, final_app by apply split_nonempty.
  reflexivity.
Qed.

(** ** More on the callbacks *)

Lemma set_set_overwrite {V} (k : string) (v1 v2 : V) (d : dict V) :
  PyDict.set k v2 (PyDict.set k v1 d) = PyDict.set k v2 d.
Proof.
  induction d as [|[k' v'] d IH]; simpl.
  - now rewrite String.eqb_refl.
  - destruct (String.eqb k k') eqn:E; simpl; rewrite E; congruence.
Qed.

Lemma mem_set {V} (k k' : string) (v : V) (d : dict V) :
  PyDict.mem k (PyDict.set k' v d) = true <-> k = k' \/ PyDict.mem k d = true.
Proof.
  unfold PyDict.mem. destruct (String.eqb_spec k k') as [->|Hne].
  - rewrite get_set_same. tauto.
  - rewrite get_set_other by congruence.
    split; [tauto | intros [H|H]; [contradiction | exact H]].
Qed.

(** X6. Two task starts under one metric name, on any two instances: the
    second begin timestamp replaces the first, and the begin dictionary
    has the keys it had after the first start, so two tasks that share a
    metric name share one entry. *)
Theorem X6_same_name_start_overwrites
    (h1 h2 : Hook) (n1 n2 : Node) (w : World) :
  _metric_name_func h1 n1 = _metric_name_func h2 n2 ->
  let name := _metric_name_func h2 n2 in
  let w1 := snd (before_node_run h1 n1 w) in
  let w2 := snd (before_node_run h2 n2 w1) in
  _time_begin_dict w2
    = PyDict.set name (clock w (S (ticks w))) (_time_begin_dict w) /\
  PyDict.get name (_time_begin_dict w2) = Some (clock w (S (ticks w))) /\
  PyDict.keys (_time_begin_dict w2) = PyDict.keys (_time_begin_dict w1).
Proof.
  intros Hname name w1 w2. subst w2 w1.
  rewrite !before_node_run_eq. cbn. rewrite Hname. fold name.
  rewrite set_set_overwrite. split; [reflexivity|].
  split; [apply get_set_same|].
  fold (PyDict.keys (PyDict.set name (clock w (S (ticks w))) (_time_begin_dict w))).
  fold (PyDict.keys (PyDict.set name (clock w (ticks w)) (_time_begin_dict w))).
  now rewrite !keys_set.
Qed.

(** X7. A task start always returns and makes no call at all, whatever
    the instance has switched on; it leaves the begin timestamps of the
    other metric names, the end and duration dictionaries and the files
    as they are. *)
Theorem X7_task_start_frame
    (self : Hook) (node : Node) (w : World) (k : string) :
  k <> _metric_name_func self node ->
  let w' := snd (before_node_run self node w) in
  fst (before_node_run self node w) = Ok tt /\
  trace w' = trace w /\
  PyDict.get k (_time_begin_dict w') = PyDict.get k (_time_begin_dict w) /\
  _time_end_dict w' = _time_end_dict w /\
  _time_dict w' = _time_dict w /\
  files w' = files w.
Proof.
  intros Hk w'. subst w'. rewrite before_node_run_eq. cbn.
  repeat split. apply get_set_other. congruence.
Qed.

(** X8. A task end, whether it returns or raises, leaves the begin
    dictionary and the files as they are, and leaves the end timestamps
    and durations of the other metric names as they are. *)
Theorem X8_task_end_frame
    (self : Hook) (node : Node) (w : World) (k : string) :
  k <> _metric_name_func self node ->
  let w' := snd (after_node_run self node w) in
  _time_begin_dict w' = _time_begin_dict w /\
  PyDict.get k (_time_end_dict w') = PyDict.get k (_time_end_dict w) /\
  PyDict.get k (_time_dict w') = PyDict.get k (_time_dict w) /\
  files w' = files w.
Proof.
  intros Hk w'. subst w'. rewrite after_node_run_eq; cbn zeta.
  assert (Hne : _metric_name_func self node <> k) by congruence.
  hook_cases; repeat split; auto using get_set_other.
Qed.


(** X10. With mlflow switched on but not importable when the task ends,
    the task end raises [ModuleNotFoundError] after the log call: the end
    timestamp is written and the duration is logged, but nothing is
    forwarded and the duration dictionary is left as it was. *)
Theorem X10_failed_import_loses_duration
    (self : Hook) (node : Node) (w : World) (t1 : float) :
  PyDict.get (_metric_name_func self node) (_time_begin_dict w) = Some t1 ->
  enabled (enable_mlflow self) = true ->
  modules w "mlflow" = false ->
  let name := _metric_name_func self node in
  let w' := snd (after_node_run self node w) in
  fst (after_node_run self node w) = Raise (ModuleNotFoundError "mlflow") /\
  trace w' =
    trace w ++ [EvLogInfo (MsgTaskDuration
                  [(name, PrimFloat.sub (clock w (ticks w)) t1)]);
                EvImport "mlflow" "log_metrics"] /\
  PyDict.get name (_time_end_dict w') = Some (clock w (ticks w)) /\
  _time_dict w' = _time_dict w.
Proof.
  intros Hbegin Hon Hmod name w'. subst w' name.
  rewrite after_node_run_eq; cbn zeta. rewrite Hbegin, Hon, Hmod.
  norm_trace. repeat split. apply get_set_same.
Qed.

(** X11. When chart rendering is off or no begin timestamp is recorded,
    pipeline end returns having logged the duration dictionary and
    nothing else: plotly is not imported, no file is written and nothing
    is uploaded, even with mlflow switched on and with tasks that were
    started and not ended. *)
Theorem X11_pipeline_end_only_logs (self : Hook) (w : World) :
  enabled (enable_plotly self) && PyDict.truthy (_time_begin_dict w) = false ->
  after_pipeline_run self w
  = (Ok tt, emits [EvLogInfo (MsgAllDurations (_time_dict w))] w) /\
  trace (snd (after_pipeline_run self w))
  = trace w ++ [EvLogInfo (MsgAllDurations (_time_dict w))] /\
  files (snd (after_pipeline_run self w)) = files w.
Proof.
  intros H. rewrite after_pipeline_run_eq; cbn zeta. rewrite H.
  repeat split.
Qed.





(** Every metric name with a duration has a begin and an end timestamp. *)
Definition durations_backed (w : World) : bool :=
  forallb (fun k => PyDict.mem k (_time_begin_dict w)
                    && PyDict.mem k (_time_end_dict w))
          (PyDict.keys (_time_dict w)).

Lemma durations_backed_iff (w : World) :
  durations_backed w = true <->
  forall k, PyDict.mem k (_time_dict w) = true ->
            PyDict.mem k (_time_begin_dict w) = true /\
            PyDict.mem k (_time_end_dict w) = true.
Proof.
  unfold durations_backed. rewrite forallb_forall. split.
  - intros H k Hk. apply andb_true_iff, H, mem_keys, Hk.
  - intros H k Hk. apply andb_true_iff, H, mem_keys, Hk.
Qed.

Lemma step_durations_backed (c : Call) (w : World) :
  durations_backed w = true -> durations_backed (snd (step c w)) = true.
Proof.
  rewrite !durations_backed_iff. intros H.
  destruct c as [self node|self node|self]; cbn [step].
  - rewrite before_node_run_eq; cbn. intros k Hk.
    destruct (H k Hk) as [Hb He]. split; [|exact He].
    apply mem_set. now right.
  - rewrite after_node_run_eq; cbn zeta.
    destruct (PyDict.get (_metric_name_func self node) (_time_begin_dict w))
      as [t1|] eqn:Hbegin.
    + assert (Hb : PyDict.mem (_metric_name_func self node)
                     (_time_begin_dict w) = true)
        by (apply mem_get; eauto).
      assert (Hstep : forall k,
                k = _metric_name_func self node \/
                PyDict.mem k (_time_dict w) = true ->
                PyDict.mem k (_time_begin_dict w) = true /\
                PyDict.mem k
                  (PyDict.set (_metric_name_func self node)
                     (clock w (ticks w)) (_time_end_dict w)) = true).
      { intros k [->|Hk].
        - split; [exact Hb | apply mem_set; now left].
        - destruct (H k Hk) as [Hkb Hke].
          split; [exact Hkb | apply mem_set; now right]. }
      hook_cases; intros k Hk;
        try (apply Hstep; apply mem_set in Hk; exact Hk);
        apply Hstep; now right.
    + cbn. intros k Hk. destruct (H k Hk) as [Hkb Hke].
      split; [exact Hkb | apply mem_set; now right].
  - destruct (pipeline_end_keeps self w) as (-> & -> & ->). exact H.
Qed.

(** X16. Over any sequence of calls, on any instances and whether or
    not they raise: if every metric name with a duration has a begin and
    an end timestamp, this is still so afterwards.  It is so in a fresh
    process, where the three dictionaries are empty. *)
Theorem X16_durations_stay_backed (cs : list Call) (w : World) :
  durations_backed w = true -> durations_backed (run cs w) = true.
Proof.
  revert w. induction cs as [|c cs IH]; intros w H; cbn; [exact H|].
  fold (run cs (snd (step c w))). now apply IH, step_durations_backed.
Qed.

(** X17. On an instance built where plotly is missing or with chart
    rendering switched off, pipeline end returns after any calls, having
    logged the duration dictionary and nothing else, also when a task
    was started and not ended. *)
Theorem X17_no_chart_no_failure
    (em ep : bool) (fp : option string) (gp : dict Any) (f : Node -> string)
    (w0 w1 : World) (h : Hook) (cs : list Call) :
  __init__ em ep fp gp f w0 = (Ok h, w1) ->
  modules w0 "plotly" && ep = false ->
  let w := run cs w1 in
  fst (after_pipeline_run h w) = Ok tt /\
  trace (snd (after_pipeline_run h w))
  = trace w ++ [EvLogInfo (MsgAllDurations (_time_dict w))] /\
  files (snd (after_pipeline_run h w)) = files w.
Proof.
  intros Hinit Hoff w.
  apply init_fields in Hinit as (_ & Hep & _).
  rewrite Hoff in Hep.
  rewrite after_pipeline_run_eq; cbn zeta. rewrite Hep; cbn [andb].
  repeat split.
Qed.

End TimeLogger.

(** ** Scenarios *)

(** The clock reads 0, 2, 3, 7, 7, ... seconds. *)
Definition clock0 (n : nat) : float :=
  match n with
  | 0 => 0%float
  | 1 => 2%float
  | 2 => 3%float
  | _ => 7%float
  end.

(** A fresh process; [found] says which packages can be imported. *)
Definition world0 (found : bool) : @World string :=
  {| _time_begin_dict := PyDict.empty;
     _time_end_dict := PyDict.empty;
     _time_dict := PyDict.empty;
     modules := fun _ => found;
     tempdir := "/tmp";
     clock := clock0;
     ticks := 0;
     files := PyDict.empty;
     trace := [] |}.

Definition gantt_title : dict string := [("title", "Timeline")].

Definition taskA : Node := {| _func_name := "A"; outputs := ["a"] |}.
Definition taskB : Node := {| _func_name := "B"; outputs := ["b"] |}.

(** Instances named after their tasks' function names, built where no
    package is found, where all are found, and with the chart switched
    off. *)
Definition hook_bare : @Hook string :=
  {| enable_mlflow := None; enable_plotly := None; gantt_filepath := None;
     gantt_params := gantt_title; _metric_name_func := _func_name |}.

Definition hook_full : @Hook string :=
  {| enable_mlflow := Some true; enable_plotly := Some true;
     gantt_filepath := None;
     gantt_params := gantt_title; _metric_name_func := _func_name |}.

Definition hook_chart : @Hook string :=
  {| enable_mlflow := Some false; enable_plotly := Some true;
     gantt_filepath := Some "out/gantt.html";
     gantt_params := gantt_title; _metric_name_func := _func_name |}.


(** The world once [__init__] has probed. *)
Definition world1 (found : bool) : @World string :=
  emits [EvFindSpec "mlflow"; EvFindSpec "plotly"] (world0 found).

Example init_bare :
  __init__ true true None gantt_title _func_name (world0 false)
  = (Ok hook_bare, world1 false).
Proof. vm_compute. reflexivity. Qed.

Example init_full :
  __init__ true true None gantt_title _func_name (world0 true)
  = (Ok hook_full, world1 true).
Proof. vm_compute. reflexivity. Qed.

(** Scenario 1: task A starts at 0 and ends at 2. *)
Example scenario_1 :
  _time_dict (run [CallBefore hook_bare taskA; CallAfter hook_bare taskA]
                  (world1 false))
  = [("A", 2%float)].
Proof. vm_compute. reflexivity. Qed.

(** Scenario 2: A runs from 0 to 2, B from 3 to 7. *)
Example scenario_2 :
  let h := hook_chart in
  let w := run [CallBefore h taskA; CallAfter h taskA;
                CallBefore h taskB; CallAfter h taskB] (world1 true) in
  let df := [ {| Task := "A"; Start := 0%float; Finish := 2000%float |};
              {| Task := "B"; Start := 3000%float; Finish := 7000%float |} ] in
  let fig := {| fig_df := df; fig_params := gantt_title |} in
  after_pipeline_run h w =
  (Ok tt,
   with_files [("out/gantt.html", fig)]
     (emits [EvLogInfo (MsgAllDurations [("A", 2%float); ("B", 4%float)]);
             EvImport "plotly.figure_factory" "create_gantt";
             EvCreateGantt df gantt_title;
             EvMkdirParent "out/gantt.html";
             EvWriteHtml fig "out/gantt.html"] w)).
Proof. vm_compute. reflexivity. Qed.

(** Scenario 3: mlflow is missing; the task is timed and logged, and
    nothing else is called. *)
Example scenario_3 :
  let w := snd (before_node_run hook_bare taskA (world1 false)) in
  after_node_run hook_bare taskA w =
  (Ok tt,
   with_time [("A", 2%float)]
     (emits [EvLogInfo (MsgTaskDuration [("A", 2%float)])] (ended "A" w))).
Proof. vm_compute. reflexivity. Qed.

(** ** The claims on the scenarios *)

Ltac evaluated := vm_compute; reflexivity.
Ltac instance_of H := vm_compute in H; vm_compute; exact H.


(** A task end with no task start raises. *)
Lemma C2_counterexample :
  PyDict.get "A" (_time_begin_dict (world1 false)) = None /\
  fst (after_node_run hook_bare taskA (world1 false)) = Raise TypeError /\
  is_ok (fst (after_node_run hook_bare taskA (world1 false))) = false /\
  _time_dict (snd (after_node_run hook_bare taskA (world1 false))) = [].
Proof. vm_compute. repeat split. Qed.

Lemma C2_witness :
  PyDict.get (_func_name taskA) (_time_begin_dict (world1 false)) = None /\
  fst (after_node_run hook_bare taskA (world1 false)) = Raise TypeError /\
  _time_dict (snd (after_node_run hook_bare taskA (world1 false))) = [] /\
  trace (snd (after_node_run hook_bare taskA (world1 false)))
    = [EvFindSpec "mlflow"; EvFindSpec "plotly"].
Proof.
  assert (H1 : PyDict.get (_func_name taskA) (_time_begin_dict (world1 false))
               = None) by evaluated.
  refine (conj H1 _).
  pose proof (C2_end_without_begin_raises hook_bare taskA (world1 false) H1)
    as H.
  instance_of H.
Defined.

Lemma C9_witness :
  PyDict.get (_func_name taskB) (_time_begin_dict (world1 true)) = None /\
  fst (after_node_run hook_full taskB (world1 true)) = Raise TypeError /\
  _time_end_dict (snd (after_node_run hook_full taskB (world1 true)))
    = PyDict.set "B" 0%float [] /\
  PyDict.get "B"
    (_time_end_dict (snd (after_node_run hook_full taskB (world1 true))))
    = Some 0%float /\
  _time_dict (snd (after_node_run hook_full taskB (world1 true))) = [] /\
  _time_begin_dict (snd (after_node_run hook_full taskB (world1 true))) = [].
Proof.
  assert (H1 : PyDict.get (_func_name taskB) (_time_begin_dict (world1 true))
               = None) by evaluated.
  refine (conj H1 _).
  pose proof (C9_end_written_before_failure hook_full taskB (world1 true) H1)
    as H.
  instance_of H.
Defined.







(** ** The further properties on the scenarios *)

Definition task_inner : Node :=
  {| _func_name := "inner"; outputs := ["a"; "b"] |}.


Lemma X3_witness :
  PyStr.mem "<" (_func_name task_inner) = false /\
  PyStr.mem ">" (_func_name task_inner) = false /\
  PyStr.mem " " (_func_name task_inner) = false /\
  PyStr.mem "." (_func_name task_inner) = false /\
  String.length (_func_name task_inner) <= 250 /\
  _get_metric_name task_inner =
    ("_time_to_run " ++ _func_name task_inner ++ " -- "
       ++ PyStr.join " - " (outputs task_inner))%string.
Proof.
  assert (H5 : String.length (_func_name task_inner) <= 250)
    by (cbn; repeat constructor).
  exact (conj eq_refl (conj eq_refl (conj eq_refl (conj eq_refl (conj H5
    (X3_plain_function_name task_inner eq_refl eq_refl eq_refl eq_refl H5)))))).
Defined.

Lemma X5_witness :
  PyStr.mem " " "pkg.make.<locals>" = false /\
  PyStr.mem " " "inner" = false /\
  PyStr.mem "." "inner" = false /\
  _get_metric_name
    {| _func_name := ("pkg.make.<locals>" ++ "." ++ "inner" ++ " " ++ "at 0x7f")%string;
       outputs := ["a"] |}
  = _get_metric_name {| _func_name := "inner"; outputs := ["a"] |}.
Proof.
  exact (conj eq_refl (conj eq_refl (conj eq_refl
    (X5_prefix_and_tail_dropped "pkg.make.<locals>" "inner" "at 0x7f" ["a"]
       eq_refl eq_refl eq_refl)))).
Defined.

Lemma X6_witness :
  _metric_name_func hook_bare taskA = _metric_name_func hook_full taskA /\
  let name := _metric_name_func hook_full taskA in
  let w1 := snd (before_node_run hook_bare taskA (world1 false)) in
  let w2 := snd (before_node_run hook_full taskA w1) in
  _time_begin_dict w2
    = PyDict.set name (clock (world1 false) (S (ticks (world1 false))))
        (_time_begin_dict (world1 false)) /\
  PyDict.get name (_time_begin_dict w2)
    = Some (clock (world1 false) (S (ticks (world1 false)))) /\
  PyDict.keys (_time_begin_dict w2) = PyDict.keys (_time_begin_dict w1).
Proof.
  exact (conj eq_refl
    (X6_same_name_start_overwrites hook_bare hook_full taskA taskA
       (world1 false) eq_refl)).
Defined.

Lemma B_is_not_A : "B" <> _metric_name_func (@hook_bare) taskA.
Proof. discriminate. Qed.

Lemma X7_witness :
  "B" <> _metric_name_func hook_bare taskA /\
  let w := snd (before_node_run hook_bare taskB (world1 false)) in
  let w' := snd (before_node_run hook_bare taskA w) in
  fst (before_node_run hook_bare taskA w) = Ok tt /\
  trace w' = trace w /\
  PyDict.get "B" (_time_begin_dict w') = PyDict.get "B" (_time_begin_dict w) /\
  _time_end_dict w' = _time_end_dict w /\
  _time_dict w' = _time_dict w /\
  files w' = files w.
Proof.
  exact (conj B_is_not_A
    (X7_task_start_frame hook_bare taskA
       (snd (before_node_run hook_bare taskB (world1 false))) "B" B_is_not_A)).
Defined.

Lemma X8_witness :
  "B" <> _metric_name_func hook_bare taskA /\
  let w := run [CallBefore hook_bare taskB; CallAfter hook_bare taskB;
                CallBefore hook_bare taskA] (world1 false) in
  let w' := snd (after_node_run hook_bare taskA w) in
  _time_begin_dict w' = _time_begin_dict w /\
  PyDict.get "B" (_time_end_dict w') = PyDict.get "B" (_time_end_dict w) /\
  PyDict.get "B" (_time_dict w') = PyDict.get "B" (_time_dict w) /\
  files w' = files w.
Proof.
  exact (conj B_is_not_A
    (X8_task_end_frame hook_bare taskA
       (run [CallBefore hook_bare taskB; CallAfter hook_bare taskB;
             CallBefore hook_bare taskA] (world1 false)) "B" B_is_not_A)).
Defined.


Lemma X10_witness :
  let w := snd (before_node_run hook_full taskA (world1 false)) in
  PyDict.get (_metric_name_func hook_full taskA) (_time_begin_dict w)
    = Some 0%float /\
  enabled (enable_mlflow hook_full) = true /\
  modules w "mlflow" = false /\
  let name := _metric_name_func hook_full taskA in
  let w' := snd (after_node_run hook_full taskA w) in
  fst (after_node_run hook_full taskA w)
    = Raise (ModuleNotFoundError "mlflow") /\
  trace w' =
    trace w ++ [EvLogInfo (MsgTaskDuration
                  [(name, PrimFloat.sub (clock w (ticks w)) 0%float)]);
                EvImport "mlflow" "log_metrics"] /\
  PyDict.get name (_time_end_dict w') = Some (clock w (ticks w)) /\
  _time_dict w' = _time_dict w.
Proof.
  exact (conj eq_refl (conj eq_refl (conj eq_refl
    (X10_failed_import_loses_duration hook_full taskA
       (snd (before_node_run hook_full taskA (world1 false))) 0%float
       eq_refl eq_refl eq_refl)))).
Defined.

Lemma X11_witness :
  enabled (enable_plotly hook_full)
    && PyDict.truthy (_time_begin_dict (world1 true)) = false /\
  after_pipeline_run hook_full (world1 true)
  = (Ok tt,
     emits [EvLogInfo (MsgAllDurations (_time_dict (world1 true)))]
           (world1 true)) /\
  trace (snd (after_pipeline_run hook_full (world1 true)))
  = trace (world1 true)
      ++ [EvLogInfo (MsgAllDurations (_time_dict (world1 true)))] /\
  files (snd (after_pipeline_run hook_full (world1 true)))
  = files (world1 true).
Proof.
  exact (conj eq_refl
    (X11_pipeline_end_only_logs hook_full (world1 true) eq_refl)).
Defined.




Lemma X16_witness :
  durations_backed (world0 false) = true /\
  durations_backed
    (run [CallAfter hook_bare taskB; CallBefore hook_bare taskA;
          CallAfter hook_bare taskA; CallPipelineEnd hook_bare]
         (world0 false)) = true.
Proof.
  exact (conj eq_refl
    (X16_durations_stay_backed
       [CallAfter hook_bare taskB; CallBefore hook_bare taskA;
        CallAfter hook_bare taskA; CallPipelineEnd hook_bare]
       (world0 false) eq_refl)).
Defined.

Lemma X17_witness :
  let cs := [CallBefore hook_bare taskA] in
  __init__ true true None gantt_title _func_name (world0 false)
    = (Ok hook_bare, world1 false) /\
  modules (world0 false) "plotly" && true = false /\
  let w := run cs (world1 false) in
  fst (after_pipeline_run hook_bare w) = Ok tt /\
  trace (snd (after_pipeline_run hook_bare w))
  = trace w ++ [EvLogInfo (MsgAllDurations (_time_dict w))] /\
  files (snd (after_pipeline_run hook_bare w)) = files w.
Proof.
  intros cs.
  assert (H1 : __init__ true true None gantt_title _func_name (world0 false)
               = (Ok hook_bare, world1 false)) by reflexivity.
  exact (conj H1 (conj eq_refl
    (X17_no_chart_no_failure true true None gantt_title _func_name
       (world0 false) (world1 false) hook_bare cs H1 eq_refl))).
Defined.
